(** * ColdFusion converter (app.py): a shallow embedding and its contract

    The program is a Flask application with three handlers ([index],
    [convert_code], [health_check]), one service class ([CodeConverter])
    and a start-up script.  Python values are modelled as follows:

    - a [str] is the list of its code points;
    - the bytes of an uploaded file are a [list byte];
    - the dictionary [supported_languages] is an association list in
      insertion order (its key order is observable through [/health]);
    - the upload folder is a finite map from paths to file contents;
    - handlers are computations in a state-and-exception monad over a
      [world] that records the outbound completion calls, the file
      system and the log. *)

From Stdlib Require Import PrimFloat.
From stdpp Require Import gmap list strings.

Set Default Proof Using "Type".
Local Set Warnings "-inexact-float,-register-all".

(** ** Python strings *)

Abbreviation str := (list N).
Abbreviation bytes := (list Byte.byte).

(** An ASCII source literal as a [str]. *)
Definition lit (s : string) : str :=
  (fun a => Ascii.N_of_ascii a) <$> String.list_ascii_of_string s.

(** [Py_UNICODE_ISSPACE]: the code points removed by [str.strip()]. *)
Definition isspace (c : N) : bool :=
  ((0x09 <=? c) && (c <=? 0x0D) ||
   (0x1C <=? c) && (c <=? 0x20) ||
   (c =? 0x85) || (c =? 0xA0) || (c =? 0x1680) ||
   (0x2000 <=? c) && (c <=? 0x200A) ||
   (c =? 0x2028) || (c =? 0x2029) || (c =? 0x202F) ||
   (c =? 0x205F) || (c =? 0x3000))%N.

Fixpoint lstrip (s : str) : str :=
  match s with
  | [] => []
  | c :: r => if isspace c then lstrip r else s
  end.

Definition rstrip (s : str) : str := reverse (lstrip (reverse s)).

(** [s.strip()] *)
Definition strip (s : str) : str := rstrip (lstrip s).

(** Truth value of a [str]: the empty string is falsy. *)
Definition truthy (s : str) : bool :=
  match s with [] => false | _ :: _ => true end.

(** [c in s] for a one-character [c]. *)
Definition has_char (c : N) (s : str) : bool := existsb (N.eqb c) s.

(** [s.rsplit(c, 1)[1]] when [c] occurs in [s]: what follows the last [c];
    [None] when [c] does not occur. *)
Fixpoint after_last (c : N) (s : str) : option str :=
  match s with
  | [] => None
  | x :: r =>
      match after_last c r with
      | Some t => Some t
      | None => if (x =? c)%N then Some r else None
      end
  end.

(** [str.lower()] on the ASCII range.  Outside it Python lowercases by the
    Unicode tables; no code point outside [A-Z] lowercases to one of the
    letters of the allowed extensions, so the membership test of
    [allowed_file] is the same. *)
Definition lower_char (c : N) : N :=
  if ((0x41 <=? c) && (c <=? 0x5A))%N then (c + 0x20)%N else c.

Definition lower (s : str) : str := lower_char <$> s.

(** [sub in s]: [s] holds [sub] as a contiguous run. *)
Definition contains (sub s : str) : Prop :=
  exists pre post, s = pre ++ sub ++ post.

(** ** Dictionaries in insertion order *)

Fixpoint dict_get {V} (d : list (str * V)) (k : str) : option V :=
  match d with
  | [] => None
  | (k', v) :: r => if decide (k' = k) then Some v else dict_get r k
  end.

Definition dict_keys {V} (d : list (str * V)) : list str := fst <$> d.

(** ** JSON values and the dictionaries handed to [jsonify] *)

Inductive json :=
| JNull
| JBool (b : bool)
| JNum (z : Z)
| JStr (s : str)
| JArr (l : list json)
| JObj (fields : list (string * json)).

(** ** Exceptions

    An exception value is known by its class, by the text [str(e)]
    renders for it, and by whether its class derives from [Exception]:
    [KeyboardInterrupt], [SystemExit] and the like derive from
    [BaseException] only, and [except Exception] does not catch them. *)
Record exn := MkExn {
  exn_class : string;
  exn_str : str;
  exn_is_Exception : bool
}.

(** An instance of a class under [Exception]. *)
Definition Exn (class : string) (text : str) : exn := MkExn class text true.

(** An instance of a class under [BaseException] but not [Exception]. *)
Definition BaseExn (class : string) (text : str) : exn := MkExn class text false.

Definition IndexError : exn :=
  Exn "IndexError" (lit "list index out of range").

Definition FileNotFoundError (path : str) : exn :=
  Exn "FileNotFoundError"
      (lit "[Errno 2] No such file or directory: '" ++ path ++ lit "'").

(** ** The outbound completion call *)

Record chat_message := ChatMessage { role : str; content : str }.

(** The keyword arguments of [openai.ChatCompletion.create]. *)
Record chat_request := ChatRequest {
  model : str;
  messages : list chat_message;
  max_tokens : Z;
  temperature : float
}.

Record choice := Choice { message : chat_message }.

Record chat_response := ChatResponse {
  choices : list choice;
  usage : json
}.

(** ** The world a handler runs in *)

Record world := World {
  calls : list chat_request;   (* completion calls issued so far, oldest first *)
  fs : gmap str bytes;         (* files on disk, by path *)
  log : list (string * str)    (* records emitted through [logger] *)
}.

Definition empty_world : world := World [] ∅ [].

(** ** Computations that may raise *)

Inductive outcome (A : Type) :=
| Raised (e : exn)
| Returned (a : A).
Arguments Raised {A} e.
Arguments Returned {A} a.

Definition M (A : Type) : Type := world -> outcome A * world.

Definition ret {A} (a : A) : M A := fun w => (Returned a, w).

Definition raise {A} (e : exn) : M A := fun w => (Raised e, w).

Definition bind {A B} (m : M A) (k : A -> M B) : M B :=
  fun w =>
    match m w with
    | (Raised e, w') => (Raised e, w')
    | (Returned a, w') => k a w'
    end.

(** [try: m  except Exception as e: h e]: an exception outside
    [Exception] is not caught and goes on to the caller. *)
Definition try_except {A} (m : M A) (h : exn -> M A) : M A :=
  fun w =>
    match m w with
    | (Raised e, w') => if exn_is_Exception e then h e w' else (Raised e, w')
    | (Returned a, w') => (Returned a, w')
    end.

Declare Scope py_scope.
Delimit Scope py_scope with py.
Notation "x <- m ;; k" := (bind m (fun x => k))
  (at level 100, m at next level, k at level 200, right associativity) : py_scope.
Notation "m ;; k" := (bind m (fun _ => k))
  (at level 100, k at level 200, right associativity) : py_scope.
Local Open Scope py_scope.

(** [logger.error(msg)] *)
Definition logger_error (msg : str) : M unit :=
  fun w => (Returned tt, World (calls w) (fs w) (log w ++ [("ERROR"%string, msg)])).

(** [l[0]] *)
Definition index0 {A} (l : list A) : M A :=
  match l with
  | [] => raise IndexError
  | x :: _ => ret x
  end.

(** ** Text files

    [open(path, 'r', encoding='utf-8').read()] decodes the whole file as
    strict UTF-8 (no overlong forms, no surrogates, nothing above
    U+10FFFF) and then applies universal-newline translation. *)

Definition is_cont (b : N) : bool := ((0x80 <=? b) && (b <=? 0xBF))%N.

Fixpoint utf8_decode (bs : bytes) : option str :=
  match bs with
  | [] => Some []
  | b0 :: r0 =>
      let n0 := Byte.to_N b0 in
      if (n0 <? 0x80)%N then cons n0 <$> utf8_decode r0
      else if ((0xC2 <=? n0) && (n0 <=? 0xDF))%N then
        match r0 with
        | b1 :: r1 =>
            let n1 := Byte.to_N b1 in
            if is_cont n1
            then cons ((n0 - 0xC0) * 64 + (n1 - 0x80))%N <$> utf8_decode r1
            else None
        | _ => None
        end
      else if ((0xE0 <=? n0) && (n0 <=? 0xEF))%N then
        match r0 with
        | b1 :: b2 :: r2 =>
            let n1 := Byte.to_N b1 in
            let n2 := Byte.to_N b2 in
            let lo := (if n0 =? 0xE0 then 0xA0 else 0x80)%N in
            let hi := (if n0 =? 0xED then 0x9F else 0xBF)%N in
            if ((lo <=? n1) && (n1 <=? hi))%N && is_cont n2
            then cons (((n0 - 0xE0) * 64 + (n1 - 0x80)) * 64 + (n2 - 0x80))%N
                   <$> utf8_decode r2
            else None
        | _ => None
        end
      else if ((0xF0 <=? n0) && (n0 <=? 0xF4))%N then
        match r0 with
        | b1 :: b2 :: b3 :: r3 =>
            let n1 := Byte.to_N b1 in
            let n2 := Byte.to_N b2 in
            let n3 := Byte.to_N b3 in
            let lo := (if n0 =? 0xF0 then 0x90 else 0x80)%N in
            let hi := (if n0 =? 0xF4 then 0x8F else 0xBF)%N in
            if ((lo <=? n1) && (n1 <=? hi))%N && is_cont n2 && is_cont n3
            then cons ((((n0 - 0xF0) * 64 + (n1 - 0x80)) * 64
                          + (n2 - 0x80)) * 64 + (n3 - 0x80))%N
                   <$> utf8_decode r3
            else None
        | _ => None
        end
      else None
  end.

(** Text mode with the default [newline=None]: CR LF and a lone CR are
    both read as LF. *)
Fixpoint universal_newlines (s : str) : str :=
  match s with
  | [] => []
  | c :: r =>
      if (c =? 0x0D)%N then
        0x0A%N ::
          match r with
          | d :: r' =>
              if (d =? 0x0A)%N then universal_newlines r' else universal_newlines r
          | [] => []
          end
      else c :: universal_newlines r
  end.

(** [os.path.join(a, b)] for two components, POSIX flavour. *)
Definition os_path_join (a b : str) : str :=
  match b with
  | 0x2F%N :: _ => b
  | _ =>
      match reverse a with
      | [] => b
      | 0x2F%N :: _ => a ++ b
      | _ => a ++ lit "/" ++ b
      end
  end.

(** ** Module-level configuration *)

(** [app.config['UPLOAD_FOLDER']] *)
Definition UPLOAD_FOLDER : str := lit "uploads".

(** [app.config['MAX_CONTENT_LENGTH']], in bytes. *)
Definition MAX_CONTENT_LENGTH : N := 16 * 1024 * 1024.

Definition ALLOWED_EXTENSIONS : gset str :=
  {[ lit "cfm"; lit "cfc"; lit "cfml"; lit "txt" ]}.

Definition allowed_file (filename : str) : bool :=
  has_char 0x2E filename &&
  match after_last 0x2E filename with
  | Some ext => bool_decide (lower ext ∈ ALLOWED_EXTENSIONS)
  | None => false
  end.

(** ** The conversion service *)

Module CodeConverter.

(** [self.supported_languages], as set by [__init__]. *)
Definition supported_languages : list (str * str) :=
  [ (lit "react", lit "React with JavaScript/TypeScript");
    (lit "ruby", lit "Ruby on Rails");
    (lit "python", lit "Python with Flask/Django");
    (lit "php", lit "PHP");
    (lit "java", lit "Java with Spring");
    (lit "csharp", lit "C# with ASP.NET") ].

Definition nl : str := [0x0A%N].

(** The f-string [base_prompt], line by line; [label] stands for
    [self.supported_languages.get(target_language, target_language)]. *)
Definition base_prompt (label target_language custom_prompt coldfusion_code : str) : str :=
  nl ++
  lit "You are an expert developer skilled in ColdFusion and " ++ label ++ lit "." ++ nl ++
  nl ++
  lit "Please convert the following ColdFusion code to " ++ target_language ++ lit ". " ++ nl ++
  nl ++
  lit "Requirements:" ++ nl ++
  lit "1. Maintain the same functionality and logic" ++ nl ++
  lit "2. Follow best practices for " ++ target_language ++ nl ++
  lit "3. Include necessary imports/dependencies" ++ nl ++
  lit "4. Add comments explaining complex conversions" ++ nl ++
  lit "5. Ensure the code is production-ready" ++ nl ++
  lit "6. Handle any ColdFusion-specific features appropriately" ++ nl ++
  nl ++
  custom_prompt ++ nl ++
  nl ++
  lit "ColdFusion Code to Convert:" ++ nl ++
  lit "```coldfusion" ++ nl ++
  coldfusion_code ++ nl ++
  lit "```" ++ nl ++
  nl ++
  lit "Please provide:" ++ nl ++
  lit "1. The converted code" ++ nl ++
  lit "2. A brief explanation of key changes made" ++ nl ++
  lit "3. Any additional setup or dependencies needed" ++ nl.

Definition system_prompt : str :=
  lit "You are an expert code converter specializing in migrating legacy ColdFusion applications to modern frameworks.".

(** The payload handed to [openai.ChatCompletion.create]. *)
Definition completion_request (label target_language custom_prompt coldfusion_code : str)
  : chat_request :=
  {| model := lit "gpt-4";
     messages :=
       [ ChatMessage (lit "system") system_prompt;
         ChatMessage (lit "user")
           (base_prompt label target_language custom_prompt coldfusion_code) ];
     max_tokens := 4000;
     temperature := 0.1 |}.

Definition success_dict (converted_code : str) (usage : json) : json :=
  JObj [ ("success"%string, JBool true);
         ("converted_code"%string, JStr converted_code);
         ("usage"%string, usage) ].

Definition failure_dict (error : str) : json :=
  JObj [ ("success"%string, JBool false); ("error"%string, JStr error) ].

Section WithApi.

(** The external completion endpoint behind the client library: for
    each payload it either raises or hands back a response object. *)
Variable api : chat_request -> outcome chat_response.

(** [openai.ChatCompletion.create(...)]: the call is recorded whether
    it returns or raises. *)
Definition ChatCompletion_create (rq : chat_request) : M chat_response :=
  fun w => (api rq, World (calls w ++ [rq]) (fs w) (log w)).

Definition convert_code (coldfusion_code target_language custom_prompt : str) : M json :=
  try_except
    (let label := default target_language (dict_get supported_languages target_language) in
     response <- ChatCompletion_create
                   (completion_request label target_language custom_prompt coldfusion_code);;
     first <- index0 (choices response);;
     ret (success_dict (content (message first)) (usage response)))
    (fun e =>
       logger_error (lit "Error converting code: " ++ exn_str e);;
       ret (failure_dict (exn_str e))).

End WithApi.

End CodeConverter.

(** ** Requests and responses *)

(** An uploaded part: [file.filename] and the bytes it carries. *)
Record FileStorage := { filename : str; stream : bytes }.

(** The parts of the body as [request.form] and [request.files] give
    them once the body is parsed ([get] and indexing return the first
    value stored under a key), and the length the client declares for
    the whole body. *)
Record request := Request {
  form : list (str * str);
  files : list (str * FileStorage);
  content_length : N
}.

(** What werkzeug raises when the declared length is above
    [MAX_CONTENT_LENGTH]; an [HTTPException], hence an [Exception]. *)
Definition RequestEntityTooLarge : exn :=
  Exn "RequestEntityTooLarge"
      (lit "413 Request Entity Too Large: The data value transmitted exceeds the capacity limit.").

(** [request.form] and [request.files]: the body is parsed on first
    access, and the parser refuses a body longer than the limit. *)
Definition request_form (request : request) : M (list (str * str)) :=
  if (MAX_CONTENT_LENGTH <? content_length request)%N
  then raise RequestEntityTooLarge
  else ret (form request).

Definition request_files (request : request) : M (list (str * FileStorage)) :=
  if (MAX_CONTENT_LENGTH <? content_length request)%N
  then raise RequestEntityTooLarge
  else ret (files request).

Inductive response :=
| jsonify (body : json)
| render_template (name : str) (languages : list (str * str)).

(** ** File operations *)

(** [file.save(path)] *)
Definition file_save (file : FileStorage) (path : str) : M unit :=
  fun w => (Returned tt, World (calls w) (<[path := stream file]> (fs w)) (log w)).

(** [os.remove(path)] *)
Definition os_remove (path : str) : M unit :=
  fun w =>
    match fs w !! path with
    | Some _ => (Returned tt, World (calls w) (delete path (fs w)) (log w))
    | None => (Raised (FileNotFoundError path), w)
    end.

Section Handlers.

Variable api : chat_request -> outcome chat_response.

(** [werkzeug.utils.secure_filename] *)
Variable secure_filename : str -> str.

(** The text of the [UnicodeDecodeError] Python raises on bytes that
    are not UTF-8. *)
Variable decode_error_text : bytes -> str.

Definition UnicodeDecodeError (raw : bytes) : exn :=
  Exn "UnicodeDecodeError" (decode_error_text raw).

(** [with open(path, 'r', encoding='utf-8') as f: f.read()] *)
Definition open_read (path : str) : M str :=
  fun w =>
    match fs w !! path with
    | None => (Raised (FileNotFoundError path), w)
    | Some raw =>
        match utf8_decode raw with
        | Some text => (Returned (universal_newlines text), w)
        | None => (Raised (UnicodeDecodeError raw), w)
        end
    end.

(** [GET /]: the call to [render_template] as a value; finding and
    rendering the template is left to Flask. *)
Definition index : M response :=
  ret (render_template (lit "index.html") CodeConverter.supported_languages).

(** [POST /convert].  A [FileStorage] is truthy exactly when its
    filename is, hence the filename tested twice in [if file and
    file.filename and ...]; [file.save] is taken to succeed. *)
Definition convert_code (request : request) : M response :=
  try_except
    (form <- request_form request;;
     let target_language := dict_get form (lit "target_language") in
     let custom_prompt := default [] (dict_get form (lit "custom_prompt")) in
     let coldfusion_code := default [] (dict_get form (lit "code_input")) in
     files <- request_files request;;
     coldfusion_code <-
       match dict_get files (lit "file") with
       | Some file =>
           if truthy (filename file) && truthy (filename file)
              && allowed_file (filename file)
           then
             let filename := secure_filename (filename file) in
             let filepath := os_path_join UPLOAD_FOLDER filename in
             file_save file filepath;;
             text <- open_read filepath;;
             os_remove filepath;;
             ret text
           else ret coldfusion_code
       | None => ret coldfusion_code
       end;;
     if negb (truthy (strip coldfusion_code)) then
       ret (jsonify (CodeConverter.failure_dict (lit "No ColdFusion code provided")))
     else
       match target_language with
       | Some target_language =>
           if negb (truthy target_language) then
             ret (jsonify (CodeConverter.failure_dict (lit "No target language specified")))
           else
             result <- CodeConverter.convert_code api coldfusion_code
                         target_language custom_prompt;;
             ret (jsonify result)
       | None =>
           ret (jsonify (CodeConverter.failure_dict (lit "No target language specified")))
       end)
    (fun e =>
       logger_error (lit "Error in convert_code route: " ++ exn_str e);;
       ret (jsonify (CodeConverter.failure_dict (exn_str e)))).

(** [GET /health] *)
Definition health_check : M response :=
  ret (jsonify
         (JObj [ ("status"%string, JStr (lit "healthy"));
                 ("supported_languages"%string,
                  JArr (JStr <$> dict_keys CodeConverter.supported_languages)) ])).

End Handlers.

(** ** Start-up

    [environ] is the process environment as [os.getenv] sees it once
    [load_dotenv()] has run.  Output written with [print] is not
    modelled. *)

Definition OPENAI_API_KEY (environ : gmap str str) : option str :=
  environ !! lit "OPENAI_API_KEY".

(** Truth value of an optional [str]: [None] and [''] are falsy. *)
Definition truthy_opt (o : option str) : bool :=
  match o with Some s => truthy s | None => false end.

(** The module-level statements: the key is looked up once and its
    presence or absence is logged; nothing here stops the process. *)
Definition module_body (environ : gmap str str) : world :=
  if truthy_opt (OPENAI_API_KEY environ)
  then World [] ∅ [("INFO"%string, lit "OpenAI API key loaded successfully")]
  else World [] ∅ [("ERROR"%string, lit "OPENAI_API_KEY not found in environment variables")].

Inductive startup :=
| SystemExit (code : Z)                 (* [exit(code)] *)
| Traceback (e : exn)                   (* an exception nobody caught *)
| AppRun (host : str) (port : Z)        (* [app.run(host=..., port=...)] *)
| Imported.                             (* the guard was false: a WSGI host owns [app] *)

(** What a client asks of the running application. *)
Inductive invocation :=
| GetIndex
| PostConvert (r : request)
| GetHealth.

Section Process.

Variable api : chat_request -> outcome chat_response.
Variable secure_filename : str -> str.
Variable decode_error_text : bytes -> str.

(** The builtin [int] applied to a [str]. *)
Variable int_of_str : str -> outcome Z.

(** The block under [if __name__ == '__main__':]. *)
Definition main_guard (name : str) (environ : gmap str str) : startup :=
  if decide (name = lit "__main__") then
    if negb (truthy_opt (OPENAI_API_KEY environ)) then SystemExit 1
    else
      match environ !! lit "PORT" with
      | None => AppRun (lit "0.0.0.0") 5000
      | Some p =>
          match int_of_str p with
          | Returned port => AppRun (lit "0.0.0.0") port
          | Raised e => Traceback e
          end
      end
  else Imported.

Definition dispatch (i : invocation) : M response :=
  match i with
  | GetIndex => index
  | PostConvert r => convert_code api secure_filename decode_error_text r
  | GetHealth => health_check
  end.

Fixpoint serve (invs : list invocation) : M (list response) :=
  match invs with
  | [] => ret []
  | i :: rest =>
      r <- dispatch i;;
      rs <- serve rest;;
      ret (r :: rs)
  end.

(** One run of the program under module name [name]: the module body,
    then the guard, then, unless the process has stopped, the requests
    that reach the application. *)
Definition run (name : str) (environ : gmap str str) (invs : list invocation)
  : startup * outcome (list response) * world :=
  let w0 := module_body environ in
  match main_guard name environ with
  | SystemExit code => (SystemExit code, Returned [], w0)
  | Traceback e => (Traceback e, Returned [], w0)
  | st => let '(rs, w) := serve invs w0 in (st, rs, w)
  end.

End Process.

(** ** The source text of a request, following the specification

    Inline [code_input] (or the empty string), unless a part named
    [file] with a non-empty name and an allowed extension is present, in
    which case the text read from the upload; [None] when the upload is
    not valid UTF-8. *)
Definition effective_source_text (r : request) : option str :=
  let inline := default [] (dict_get (form r) (lit "code_input")) in
  match dict_get (files r) (lit "file") with
  | Some file =>
      if truthy (filename file) && allowed_file (filename file)
      then universal_newlines <$> utf8_decode (stream file)
      else Some inline
  | None => Some inline
  end.

(** A string is blank when every code point of it is whitespace. *)
Definition blank (s : str) : Prop := Forall (fun c => isspace c = true) s.

(** ** Names used in the statements below *)

(** What the [except] clause of the service leaves behind. *)
Definition service_failure (e : exn) (w : world) : outcome json * world :=
  (Returned (CodeConverter.failure_dict (exn_str e)),
   World (calls w) (fs w)
         (log w ++ [("ERROR"%string, lit "Error converting code: " ++ exn_str e)])).

(** What the [except] clause of the route leaves behind. *)
Definition route_failure (e : exn) (w : world) : outcome response * world :=
  (Returned (jsonify (CodeConverter.failure_dict (exn_str e))),
   World (calls w) (fs w)
         (log w ++ [("ERROR"%string, lit "Error in convert_code route: " ++ exn_str e)])).

(** Where the route stores an upload. *)
Definition upload_path (secure_filename : str -> str) (file : FileStorage) : str :=
  os_path_join UPLOAD_FOLDER (secure_filename (filename file)).

(** The route from its first validation on, once the source text is
    settled: the two checks, then the service. *)
Definition validate_and_convert (api : chat_request -> outcome chat_response)
    (target_language : option str) (custom_prompt coldfusion_code : str) : M response :=
  if negb (truthy (strip coldfusion_code)) then
    ret (jsonify (CodeConverter.failure_dict (lit "No ColdFusion code provided")))
  else
    match target_language with
    | Some target_language =>
        if negb (truthy target_language) then
          ret (jsonify (CodeConverter.failure_dict (lit "No target language specified")))
        else
          result <- CodeConverter.convert_code api coldfusion_code
                      target_language custom_prompt;;
          ret (jsonify result)
    | None =>
        ret (jsonify (CodeConverter.failure_dict (lit "No target language specified")))
    end.

(** The request's declared length is within the configured limit. *)
Definition within_limit (r : request) : Prop :=
  (content_length r <= MAX_CONTENT_LENGTH)%N.

(** The world with the file at [path] gone and nothing else touched. *)
Definition without_file (path : str) (w : world) : world :=
  World (calls w) (delete path (fs w)) (log w).

(** The world with [raw] stored at [path] and nothing else touched. *)
Definition with_file (path : str) (raw : bytes) (w : world) : world :=
  World (calls w) (<[path := raw]> (fs w)) (log w).

(** ** Sample collaborators and inputs *)

(** An endpoint that answers every payload with one choice. *)
Definition api_ok : chat_request -> outcome chat_response :=
  fun _ =>
    Returned (ChatResponse
                [Choice (ChatMessage (lit "assistant") (lit "print('hi')"))]
                (JObj [("total_tokens"%string, JNum 42)])).

(** An endpoint that cannot be reached. *)
Definition api_down : chat_request -> outcome chat_response :=
  fun _ => Raised (Exn "APIConnectionError" (lit "Error communicating with OpenAI")).

(** [secure_filename] leaves a name made of ASCII letters, digits and
    one inner dot as it is. *)
Definition keep_filename : str -> str := fun s => s.

Definition sample_decode_error_text : bytes -> str :=
  fun _ => lit "'utf-8' codec can't decode byte 0xff in position 0: invalid start byte".

Definition sample_int_of_str : str -> outcome Z :=
  fun _ => Returned 8080%Z.

Definition cf_snippet : str := lit "<cfoutput>#now()#</cfoutput>".

(** An endpoint behind a client that was given no key. *)
Definition api_no_key : chat_request -> outcome chat_response :=
  fun _ => Raised (Exn "AuthenticationError" (lit "No API key provided.")).

(** Inline code and a target language, no upload. *)
Definition req_inline : request :=
  Request [ (lit "target_language", lit "python"); (lit "code_input", cf_snippet) ] [] 64.



Definition upload_cfm : FileStorage :=
  {| filename := lit "page.CFM";
     stream := String.list_byte_of_string "<cfset total = 1>" |}.

Definition upload_exe : FileStorage :=
  {| filename := lit "page.exe";
     stream := String.list_byte_of_string "<cfset total = 1>" |}.


(** A file that is not UTF-8. *)
Definition upload_latin1 : FileStorage :=
  {| filename := lit "a.txt"; stream := [Byte.xff] |}.


(** [req_inline] with an upload added. *)
Definition with_upload (file : FileStorage) : request :=
  Request (form req_inline) [ (lit "file", file) ] 512.

(** ** Further names used in the statements below *)

(** The two shapes of dictionary the service and the route hand to
    [jsonify]. *)
Definition is_result_dict (j : json) : Prop :=
  (exists converted_code usage, j = CodeConverter.success_dict converted_code usage)
  \/ (exists error, j = CodeConverter.failure_dict error).

(** The invocations that reach the conversion route. *)
Definition is_convert (i : invocation) : bool :=
  match i with PostConvert _ => true | _ => false end.

(** An endpoint that answers with two choices. *)
Definition api_two_choices : chat_request -> outcome chat_response :=
  fun _ =>
    Returned (ChatResponse
                [ Choice (ChatMessage (lit "assistant") (lit "first"));
                  Choice (ChatMessage (lit "assistant") (lit "second")) ]
                (JObj [("total_tokens"%string, JNum 7)])).

(** An endpoint that answers with no choice. *)
Definition api_no_choice : chat_request -> outcome chat_response :=
  fun _ => Returned (ChatResponse [] JNull).

(** [int] on a [PORT] value that is no number. *)
Definition int_refuses : str -> outcome Z :=
  fun s => Raised (Exn "ValueError"
                     (lit "invalid literal for int() with base 10: '" ++ s ++ lit "'")).



(** An endpoint call cut short from the keyboard. *)
Definition api_interrupted : chat_request -> outcome chat_response :=
  fun _ => Raised (BaseExn "KeyboardInterrupt" []).


(** The declared length of a body of 17 MiB. *)
Definition seventeen_MiB : N := 17 * 1024 * 1024.


(** [with_upload] in a body declared longer than the limit. *)
Definition with_upload_oversize (file : FileStorage) : request :=
  Request (form req_inline) [ (lit "file", file) ] seventeen_MiB.

(** An environment that holds a key. *)
Definition environ_with_key : gmap str str :=
  {[ lit "OPENAI_API_KEY" := lit "sk-test" ]}.

(** An environment that holds a key and a [PORT] that is no number. *)
Definition environ_bad_port : gmap str str :=
  <[ lit "PORT" := lit "http" ]> environ_with_key.

(** An environment whose key is the empty string. *)
Definition environ_empty_key : gmap str str :=
  {[ lit "OPENAI_API_KEY" := [] ]}.

(** * Properties *)

(** ** Strings *)

Lemma lstrip_nil_iff s : lstrip s = [] <-> blank s.
Proof.
  unfold blank. induction s as [|c r IH]; simpl.
  - split; [constructor | reflexivity].
  - destruct (isspace c) eqn:Hc.
    + rewrite IH. split; [by constructor | by inversion 1].
    + split; [discriminate | inversion 1; congruence].
Qed.

Lemma lstrip_idem s : lstrip (lstrip s) = lstrip s.
Proof.
  induction s as [|c r IH]; simpl; [reflexivity|].
  destruct (isspace c) eqn:Hc; [exact IH | simpl; by rewrite Hc].
Qed.

Lemma blank_reverse s : blank (reverse s) <-> blank s.
Proof. unfold blank. by rewrite Forall_reverse. Qed.

Lemma strip_nil_iff s : strip s = [] <-> blank s.
Proof.
  unfold strip, rstrip. split.
  - intros H. apply lstrip_nil_iff.
    apply (f_equal reverse) in H. rewrite reverse_involutive in H.
    change (reverse []) with (@nil N) in H.
    apply (proj1 (lstrip_nil_iff _)) in H.
    apply (proj1 (blank_reverse _)) in H.
    rewrite <- lstrip_idem. by apply (proj2 (lstrip_nil_iff _)).
  - intros H. apply lstrip_nil_iff in H. by rewrite H.
Qed.

Lemma truthy_false_iff s : truthy s = false <-> s = [].
Proof. destruct s; simpl; split; congruence. Qed.

Lemma truthy_strip_blank s : blank s -> truthy (strip s) = false.
Proof. intros H. by apply truthy_false_iff, strip_nil_iff. Qed.



Lemma contains_here (x s : str) : contains x (x ++ s).
Proof. exists [], s. reflexivity. Qed.

Lemma contains_app_r (x p s : str) : contains x s -> contains x (p ++ s).
Proof.
  intros (pre & post & ->). exists (p ++ pre), post. by rewrite <- app_assoc.
Qed.

Lemma allowed_file_truthy f : allowed_file f = true -> truthy f = true.
Proof. destruct f; [discriminate | reflexivity]. Qed.

(** ** The conversion service *)

Section ServiceFacts.

Variable api : chat_request -> outcome chat_response.

Lemma service_unfold code lang custom w :
  let label := default lang (dict_get CodeConverter.supported_languages lang) in
  let rq := CodeConverter.completion_request label lang custom code in
  let w1 := World (calls w ++ [rq]) (fs w) (log w) in
  CodeConverter.convert_code api code lang custom w =
    match api rq with
    | Returned r =>
        match choices r with
        | c :: _ =>
            (Returned (CodeConverter.success_dict (content (message c)) (usage r)), w1)
        | [] => service_failure IndexError w1
        end
    | Raised e =>
        if exn_is_Exception e then service_failure e w1 else (Raised e, w1)
    end.
Proof.
  intros label rq w1.
  unfold CodeConverter.convert_code, try_except, bind, CodeConverter.ChatCompletion_create.
  fold label. fold rq. fold w1.
  destruct (api rq) as [e|r]; [by destruct (exn_is_Exception e)|].
  destruct (choices r) as [|c cs]; reflexivity.
Qed.

Lemma service_calls code lang custom w :
  calls (CodeConverter.convert_code api code lang custom w).2 =
    calls w ++
      [CodeConverter.completion_request
         (default lang (dict_get CodeConverter.supported_languages lang)) lang custom code].
Proof.
  rewrite service_unfold.
  destruct (api _) as [e|r]; [by destruct (exn_is_Exception e)|].
  destruct (choices r); reflexivity.
Qed.

(** The service hands on only what [except Exception] does not catch. *)
Lemma service_outcome code lang custom w :
  (exists d, (CodeConverter.convert_code api code lang custom w).1 = Returned d)
  \/ (exists e, (CodeConverter.convert_code api code lang custom w).1 = Raised e
                /\ exn_is_Exception e = false).
Proof.
  rewrite service_unfold.
  destruct (api _) as [e|r].
  - destruct (exn_is_Exception e) eqn:He; [left | right]; by eexists.
  - left. destruct (choices r); by eexists.
Qed.

Lemma service_keeps_files code lang custom w :
  fs (CodeConverter.convert_code api code lang custom w).2 = fs w.
Proof.
  rewrite service_unfold.
  destruct (api _) as [e|r]; [by destruct (exn_is_Exception e)|].
  destruct (choices r); reflexivity.
Qed.

End ServiceFacts.

Lemma prompt_contains_code label lang custom code :
  contains code (CodeConverter.base_prompt label lang custom code).
Proof.
  unfold CodeConverter.base_prompt.
  repeat (apply contains_here || apply contains_app_r).
Qed.

Lemma prompt_contains_label label lang custom code :
  contains label (CodeConverter.base_prompt label lang custom code).
Proof.
  unfold CodeConverter.base_prompt.
  repeat (apply contains_here || apply contains_app_r).
Qed.

(** C1: for a source text that is not empty after trimming and a key of
    the supported-language map, [convert_code] issues exactly one
    completion call; its payload has temperature 0.1 and a token limit
    of 4000, and its user prompt holds the source text and the
    language's display label verbatim. *)
Theorem convert_code_issues_one_call
    (api : chat_request -> outcome chat_response)
    (code lang label custom : str) (w : world) :
  strip code <> [] ->
  dict_get CodeConverter.supported_languages lang = Some label ->
  exists rq prompt,
    calls (CodeConverter.convert_code api code lang custom w).2 = calls w ++ [rq]
    /\ temperature rq = 0.1%float
    /\ max_tokens rq = 4000%Z
    /\ messages rq = [ ChatMessage (lit "system") CodeConverter.system_prompt;
                       ChatMessage (lit "user") prompt ]
    /\ contains code prompt
    /\ contains label prompt.
Proof.
  intros _ Hlabel.
  exists (CodeConverter.completion_request label lang custom code),
         (CodeConverter.base_prompt label lang custom code).
  rewrite service_calls, Hlabel. simpl default.
  repeat split; auto using prompt_contains_code, prompt_contains_label.
Qed.

Lemma convert_code_issues_one_call_witness :
  strip cf_snippet <> []
  /\ dict_get CodeConverter.supported_languages (lit "python")
       = Some (lit "Python with Flask/Django")
  /\ exists rq prompt,
    calls (CodeConverter.convert_code api_ok cf_snippet (lit "python") [] empty_world).2
      = calls empty_world ++ [rq]
    /\ temperature rq = 0.1%float
    /\ max_tokens rq = 4000%Z
    /\ messages rq = [ ChatMessage (lit "system") CodeConverter.system_prompt;
                       ChatMessage (lit "user") prompt ]
    /\ contains cf_snippet prompt
    /\ contains (lit "Python with Flask/Django") prompt.
Proof.
  assert (Hcode : strip cf_snippet <> []) by (vm_compute; discriminate).
  assert (Hkey : dict_get CodeConverter.supported_languages (lit "python")
                 = Some (lit "Python with Flask/Django")) by (vm_compute; reflexivity).
  split; [exact Hcode|]. split; [exact Hkey|].
  exact (convert_code_issues_one_call api_ok cf_snippet (lit "python")
           (lit "Python with Flask/Django") [] empty_world Hcode Hkey).
Defined.



(** C5, as the code has it: when the completion call raises an exception
    whose class derives from [Exception], [convert_code] catches it
    where it calls: it returns the dictionary
    [{'success': False, 'error': str(e)}], the call has been made once
    and is not made again, and nothing is raised to the caller. *)
Theorem convert_code_catches
    (api : chat_request -> outcome chat_response)
    (code lang custom : str) (w : world) (e : exn) :
  let label := default lang (dict_get CodeConverter.supported_languages lang) in
  let rq := CodeConverter.completion_request label lang custom code in
  api rq = Raised e ->
  exn_is_Exception e = true ->
  CodeConverter.convert_code api code lang custom w =
    (Returned (JObj [ ("success"%string, JBool false);
                      ("error"%string, JStr (exn_str e)) ]),
     World (calls w ++ [rq]) (fs w)
           (log w ++ [("ERROR"%string, lit "Error converting code: " ++ exn_str e)])).
Proof.
  intros label rq Hraise Hclass. rewrite service_unfold.
  fold label. fold rq. rewrite Hraise, Hclass. reflexivity.
Qed.

Lemma convert_code_catches_witness :
  api_down (CodeConverter.completion_request (lit "Ruby on Rails") (lit "ruby") [] cf_snippet)
    = Raised (Exn "APIConnectionError" (lit "Error communicating with OpenAI"))
  /\ exn_is_Exception (Exn "APIConnectionError" (lit "Error communicating with OpenAI"))
     = true
  /\ CodeConverter.convert_code api_down cf_snippet (lit "ruby") [] empty_world =
    (Returned (JObj [ ("success"%string, JBool false);
                      ("error"%string, JStr (lit "Error communicating with OpenAI")) ]),
     World [CodeConverter.completion_request (lit "Ruby on Rails") (lit "ruby") [] cf_snippet]
           ∅
           [("ERROR"%string,
             lit "Error converting code: " ++ lit "Error communicating with OpenAI")]).
Proof.
  split; [reflexivity|]. split; [reflexivity|].
  exact (convert_code_catches api_down cf_snippet (lit "ruby") [] empty_world
           (Exn "APIConnectionError" (lit "Error communicating with OpenAI"))
           eq_refl eq_refl).
Defined.

(** C5, as the claim words it, fails for an exception outside
    [Exception]: a [KeyboardInterrupt] raised during the completion call
    is not caught by [except Exception]; [convert_code] raises it to its
    caller and returns no dictionary. *)
Lemma convert_code_lets_interrupt_through :
  api_interrupted
    (CodeConverter.completion_request (lit "Ruby on Rails") (lit "ruby") [] cf_snippet)
    = Raised (BaseExn "KeyboardInterrupt" [])
  /\ CodeConverter.convert_code api_interrupted cf_snippet (lit "ruby") [] empty_world =
       (Raised (BaseExn "KeyboardInterrupt" []),
        World [CodeConverter.completion_request (lit "Ruby on Rails") (lit "ruby") []
                 cf_snippet] ∅ []).
Proof. split; reflexivity. Qed.


(** ** The route *)

Section RouteFacts.

Variable api : chat_request -> outcome chat_response.
Variable secure_filename : str -> str.
Variable decode_error_text : bytes -> str.

Local Abbreviation route := (convert_code api secure_filename decode_error_text).

Local Abbreviation route_handler :=
  (fun e : exn =>
     (logger_error (lit "Error in convert_code route: " ++ exn_str e);;
      ret (jsonify (CodeConverter.failure_dict (exn_str e))))%py).

(** The validated tail hands on only what [except Exception] does not
    catch. *)
Lemma validate_outcome tl custom code w :
  (exists r, (validate_and_convert api tl custom code w).1 = Returned r)
  \/ (exists e, (validate_and_convert api tl custom code w).1 = Raised e
                /\ exn_is_Exception e = false).
Proof.
  unfold validate_and_convert.
  destruct (negb (truthy (strip code))); [left; by eexists|].
  destruct tl as [lang|]; [|left; by eexists].
  destruct (negb (truthy lang)); [left; by eexists|].
  unfold bind.
  destruct (service_outcome api code lang custom w) as [[d Hd]|(e & He & Hclass)];
    destruct (CodeConverter.convert_code api code lang custom w) as [[e'|d'] w'];
    simpl in *; try discriminate.
  - left. by eexists.
  - right. exists e'. split; [reflexivity | congruence].
Qed.



(** The [try] of the route is transparent around the validated tail. *)
Lemma try_validate tl custom code h w :
  try_except (validate_and_convert api tl custom code) h w =
    validate_and_convert api tl custom code w.
Proof.
  unfold try_except.
  destruct (validate_outcome tl custom code w) as [[r Hr]|(e & He & Hclass)];
    destruct (validate_and_convert api tl custom code w) as [[e'|r'] w'];
    simpl in *; try discriminate; try reflexivity.
  injection He as ->. by rewrite Hclass.
Qed.

(** A body declared longer than the limit is refused when the form is
    first read; the route's own handler answers. *)
Lemma route_oversize (r : request) w :
  ~ within_limit r ->
  route r w = route_failure RequestEntityTooLarge w.
Proof.
  intros Hlim. unfold convert_code, request_form, request_files.
  destruct (MAX_CONTENT_LENGTH <? content_length r)%N eqn:E; [reflexivity|].
  apply N.ltb_ge in E. by destruct Hlim.
Qed.

Lemma route_without_upload (r : request) w :
  within_limit r ->
  dict_get (files r) (lit "file") = None ->
  route r w =
    validate_and_convert api (dict_get (form r) (lit "target_language"))
      (default [] (dict_get (form r) (lit "custom_prompt")))
      (default [] (dict_get (form r) (lit "code_input"))) w.
Proof.
  intros Hlim Hnone. rewrite <- try_validate with (h := route_handler).
  unfold convert_code, request_form, request_files.
  destruct (MAX_CONTENT_LENGTH <? content_length r)%N eqn:E;
    [apply N.ltb_lt in E; unfold within_limit in Hlim; lia|].
  unfold try_except, bind, ret. cbv beta iota zeta. rewrite Hnone. reflexivity.
Qed.

Lemma route_upload_ignored (r : request) file w :
  within_limit r ->
  dict_get (files r) (lit "file") = Some file ->
  allowed_file (filename file) = false ->
  route r w =
    validate_and_convert api (dict_get (form r) (lit "target_language"))
      (default [] (dict_get (form r) (lit "custom_prompt")))
      (default [] (dict_get (form r) (lit "code_input"))) w.
Proof.
  intros Hlim Hfile Hext. rewrite <- try_validate with (h := route_handler).
  unfold convert_code, request_form, request_files.
  destruct (MAX_CONTENT_LENGTH <? content_length r)%N eqn:E;
    [apply N.ltb_lt in E; unfold within_limit in Hlim; lia|].
  unfold try_except, bind, ret. cbv beta iota zeta.
  rewrite Hfile, Hext, andb_false_r. reflexivity.
Qed.

Lemma route_upload_read (r : request) file text w :
  within_limit r ->
  dict_get (files r) (lit "file") = Some file ->
  allowed_file (filename file) = true ->
  utf8_decode (stream file) = Some text ->
  route r w =
    validate_and_convert api (dict_get (form r) (lit "target_language"))
      (default [] (dict_get (form r) (lit "custom_prompt")))
      (universal_newlines text)
      (without_file (upload_path secure_filename file) w).
Proof.
  intros Hlim Hfile Hext Hdec. rewrite <- try_validate with (h := route_handler).
  unfold convert_code, request_form, request_files.
  destruct (MAX_CONTENT_LENGTH <? content_length r)%N eqn:E;
    [apply N.ltb_lt in E; unfold within_limit in Hlim; lia|].
  unfold try_except, bind, ret. cbv beta iota zeta.
  rewrite Hfile, Hext, (allowed_file_truthy _ Hext).
  unfold file_save, open_read, os_remove.
  cbn [fs calls log andb].
  fold (upload_path secure_filename file).
  rewrite (lookup_insert_eq (fs w)), Hdec. cbn [fs calls log].
  rewrite (lookup_insert_eq (fs w)). cbn [fs calls log].
  rewrite (delete_insert_eq (fs w)). reflexivity.
Qed.

Lemma route_upload_undecodable (r : request) file w :
  within_limit r ->
  dict_get (files r) (lit "file") = Some file ->
  allowed_file (filename file) = true ->
  utf8_decode (stream file) = None ->
  route r w =
    route_failure (UnicodeDecodeError decode_error_text (stream file))
      (with_file (upload_path secure_filename file) (stream file) w).
Proof.
  intros Hlim Hfile Hext Hdec.
  unfold convert_code, request_form, request_files.
  destruct (MAX_CONTENT_LENGTH <? content_length r)%N eqn:E;
    [apply N.ltb_lt in E; unfold within_limit in Hlim; lia|].
  unfold try_except, bind, ret. cbv beta iota zeta.
  rewrite Hfile, Hext, (allowed_file_truthy _ Hext).
  unfold file_save, open_read, os_remove, logger_error.
  cbn [fs calls log andb].
  fold (upload_path secure_filename file).
  rewrite (lookup_insert_eq (fs w)), Hdec. reflexivity.
Qed.

End RouteFacts.

Lemma truthy_and_allowed f : truthy f && allowed_file f = allowed_file f.
Proof. destruct f; reflexivity. Qed.

Lemma within_limit_small (r : request) :
  (content_length r <=? MAX_CONTENT_LENGTH)%N = true -> within_limit r.
Proof. apply N.leb_le. Qed.











(** The allowed upload of the sample request decodes, and its text is
    what the service is called with. *)
Example upload_cfm_is_converted :
  allowed_file (filename upload_cfm) = true
  /\ utf8_decode (stream upload_cfm) = Some (lit "<cfset total = 1>")
  /\ calls (convert_code api_ok keep_filename sample_decode_error_text
              (with_upload upload_cfm) empty_world).2 =
       [CodeConverter.completion_request (lit "Python with Flask/Django") (lit "python") []
          (lit "<cfset total = 1>")].
Proof. vm_compute. repeat split. Qed.

(** The upload with a refused extension leaves the inline text in place. *)
Example upload_exe_is_ignored :
  allowed_file (filename upload_exe) = false
  /\ calls (convert_code api_ok keep_filename sample_decode_error_text
              (with_upload upload_exe) empty_world).2 =
       [CodeConverter.completion_request (lit "Python with Flask/Django") (lit "python") []
          cf_snippet].
Proof. vm_compute. repeat split. Qed.


(** C7, the path where the stored upload is left behind: an accepted
    upload that is not UTF-8 makes [f.read()] raise before [os.remove]
    is reached; the route answers with the decoding error and the file
    is still on disk when the request is over. *)
Theorem undecodable_upload_is_left_on_disk :
  allowed_file (filename upload_latin1) = true
  /\ utf8_decode (stream upload_latin1) = None
  /\ (convert_code api_ok keep_filename sample_decode_error_text
        (with_upload upload_latin1) empty_world).1 =
       Returned (jsonify (CodeConverter.failure_dict
                            (sample_decode_error_text (stream upload_latin1))))
  /\ fs (convert_code api_ok keep_filename sample_decode_error_text
           (with_upload upload_latin1) empty_world).2
       !! lit "uploads/a.txt" = Some [Byte.xff].
Proof.
  assert (Hlim : within_limit (with_upload upload_latin1))
    by (apply within_limit_small; reflexivity).
  assert (Hfile : dict_get (files (with_upload upload_latin1)) (lit "file")
                  = Some upload_latin1) by (vm_compute; reflexivity).
  assert (Hext : allowed_file (filename upload_latin1) = true) by (vm_compute; reflexivity).
  assert (Hdec : utf8_decode (stream upload_latin1) = None) by reflexivity.
  rewrite (route_upload_undecodable api_ok keep_filename sample_decode_error_text
             _ _ empty_world Hlim Hfile Hext Hdec).
  split; [exact Hext|]. split; [exact Hdec|]. split; [reflexivity|].
  unfold route_failure, with_file. cbn [snd fs].
  change (upload_path keep_filename upload_latin1) with (lit "uploads/a.txt").
  apply (lookup_insert_eq (∅ : gmap str bytes)).
Qed.

(** On the path where the upload is read, the stored copy is gone when
    the request is over. *)
Lemma decodable_upload_is_removed api sf det (r : request) file text w :
  within_limit r ->
  dict_get (files r) (lit "file") = Some file ->
  allowed_file (filename file) = true ->
  utf8_decode (stream file) = Some text ->
  fs (convert_code api sf det r w).2 !! upload_path sf file = None.
Proof.
  intros Hlim Hfile Hext Hdec.
  rewrite (route_upload_read api sf det r file text w Hlim Hfile Hext Hdec).
  unfold validate_and_convert.
  destruct (negb (truthy (strip (universal_newlines text)))).
  { apply (lookup_delete_eq (fs w)). }
  destruct (dict_get (form r) (lit "target_language")) as [lang|].
  2: { apply (lookup_delete_eq (fs w)). }
  destruct (negb (truthy lang)).
  { apply (lookup_delete_eq (fs w)). }
  unfold bind.
  pose proof (service_keeps_files api (universal_newlines text) lang
                (default [] (dict_get (form r) (lit "custom_prompt")))
                (without_file (upload_path sf file) w)) as Hfs.
  destruct (CodeConverter.convert_code api _ lang _ _) as [[e|d] w'];
    unfold ret; cbn [snd fs] in *; rewrite Hfs; apply (lookup_delete_eq (fs w)).
Qed.




(** C9: [GET /health] answers with status [healthy] and the keys of the
    supported-language map, in the order the map lists them, whatever
    the world is, and leaves the world as it was: no completion call. *)
Theorem health_check_reports_keys (w : world) :
  health_check w =
    (Returned (jsonify
       (JObj [ ("status"%string, JStr (lit "healthy"));
               ("supported_languages"%string,
                JArr (JStr <$> dict_keys CodeConverter.supported_languages)) ])),
     w)
  /\ dict_keys CodeConverter.supported_languages =
       [ lit "react"; lit "ruby"; lit "python"; lit "php"; lit "java"; lit "csharp" ].
Proof. split; reflexivity. Qed.

(** ** Start-up *)

(** C8, as the code has it: run as the main program with no
    [OPENAI_API_KEY] in the environment, the process leaves with status
    1 before [app.run] is reached; it answers no request and issues no
    completion call. *)
Theorem main_exits_without_key
    (api : chat_request -> outcome chat_response)
    (secure_filename : str -> str) (decode_error_text : bytes -> str)
    (int_of_str : str -> outcome Z)
    (environ : gmap str str) (invs : list invocation) :
  OPENAI_API_KEY environ = None ->
  run api secure_filename decode_error_text int_of_str (lit "__main__") environ invs =
    (SystemExit 1, Returned [], module_body environ)
  /\ calls (module_body environ) = [].
Proof.
  intros Hkey. unfold run, main_guard, module_body. rewrite Hkey.
  destruct (decide (lit "__main__" = lit "__main__")) as [_|Hne]; [|congruence].
  split; reflexivity.
Qed.

Lemma main_exits_without_key_witness :
  OPENAI_API_KEY ∅ = None
  /\ run api_ok keep_filename sample_decode_error_text sample_int_of_str
       (lit "__main__") ∅ [PostConvert req_inline] =
       (SystemExit 1, Returned [], module_body ∅)
  /\ calls (module_body ∅) = [].
Proof.
  assert (Hkey : OPENAI_API_KEY ∅ = None) by reflexivity.
  split; [exact Hkey|].
  exact (main_exits_without_key api_ok keep_filename sample_decode_error_text
           sample_int_of_str ∅ [PostConvert req_inline] Hkey).
Defined.

(** C8, as the claim words it, fails when the module is imported by a
    WSGI host instead of being run: the guard is false, nothing exits,
    and the missing key shows as the error of a request. *)
Lemma imported_without_key_serves :
  OPENAI_API_KEY ∅ = None
  /\ (run api_no_key keep_filename sample_decode_error_text sample_int_of_str
        (lit "app") ∅ [PostConvert req_inline]).1 =
       (Imported,
        Returned [jsonify (CodeConverter.failure_dict (lit "No API key provided."))]).
Proof. split; vm_compute; reflexivity. Qed.

(** With the key set, the main program reaches [app.run] on port 5000
    when [PORT] is not set. *)
Lemma main_runs_with_key
    (api : chat_request -> outcome chat_response) (sf : str -> str)
    (det : bytes -> str) (ios : str -> outcome Z)
    (environ : gmap str str) (key : str) :
  OPENAI_API_KEY environ = Some key -> truthy key = true ->
  environ !! lit "PORT" = None ->
  main_guard ios (lit "__main__") environ = AppRun (lit "0.0.0.0") 5000
  /\ (run api sf det ios (lit "__main__") environ []).1 =
       (AppRun (lit "0.0.0.0") 5000, Returned []).
Proof.
  intros Hkey Htruthy Hport. unfold run, main_guard. rewrite Hkey, Hport.
  destruct (decide (lit "__main__" = lit "__main__")) as [_|Hne]; [|congruence].
  cbn [truthy_opt]. rewrite Htruthy. split; reflexivity.
Qed.


(** ** What a handler can raise *)

(** The route hands on only what [except Exception] does not catch. *)
Lemma route_outcome api sf det (r : request) w :
  (exists resp, (convert_code api sf det r w).1 = Returned resp)
  \/ (exists e, (convert_code api sf det r w).1 = Raised e
                /\ exn_is_Exception e = false).
Proof.
  destruct (decide (within_limit r)) as [Hlim|Hlim].
  2: { rewrite (route_oversize api sf det r w Hlim). left. by eexists. }
  destruct (dict_get (files r) (lit "file")) as [file|] eqn:Hfile.
  - destruct (allowed_file (filename file)) eqn:Hext.
    + destruct (utf8_decode (stream file)) as [t|] eqn:Hdec.
      * rewrite (route_upload_read api sf det r file t w Hlim Hfile Hext Hdec).
        apply validate_outcome.
      * rewrite (route_upload_undecodable api sf det r file w Hlim Hfile Hext Hdec).
        left. by eexists.
    + rewrite (route_upload_ignored api sf det r file w Hlim Hfile Hext).
      apply validate_outcome.
  - rewrite (route_without_upload api sf det r w Hlim Hfile). apply validate_outcome.
Qed.

(** ** The embedding on concrete inputs *)

Example strip_both_ends :
  strip (lit "  <cfset x = 1>" ++ [0x0D; 0x0A]%N) = lit "<cfset x = 1>".
Proof. vm_compute. reflexivity. Qed.

Example strip_keeps_inner_space : strip (lit " a b ") = lit "a b".
Proof. vm_compute. reflexivity. Qed.

Example allowed_upper_case : allowed_file (lit "report.final.TxT") = true.
Proof. vm_compute. reflexivity. Qed.

Example allowed_last_extension_only : allowed_file (lit "page.cfm.exe") = false.
Proof. vm_compute. reflexivity. Qed.

Example allowed_needs_dot : allowed_file (lit "cfm") = false.
Proof. vm_compute. reflexivity. Qed.

Example allowed_hidden_file : allowed_file (lit ".cfml") = true.
Proof. vm_compute. reflexivity. Qed.

Example utf8_two_bytes : utf8_decode [Byte.xc3; Byte.xa9] = Some [0xE9%N].
Proof. reflexivity. Qed.

Example utf8_three_bytes : utf8_decode [Byte.xe2; Byte.x82; Byte.xac] = Some [0x20AC%N].
Proof. reflexivity. Qed.

Example utf8_four_bytes :
  utf8_decode [Byte.xf0; Byte.x9f; Byte.x98; Byte.x80] = Some [0x1F600%N].
Proof. reflexivity. Qed.

Example utf8_overlong_refused : utf8_decode [Byte.xc0; Byte.x80] = None.
Proof. reflexivity. Qed.

Example utf8_surrogate_refused : utf8_decode [Byte.xed; Byte.xa0; Byte.x80] = None.
Proof. reflexivity. Qed.

Example utf8_truncated_refused : utf8_decode [Byte.x61; Byte.xe2; Byte.x82] = None.
Proof. reflexivity. Qed.

Example newlines_translated :
  universal_newlines [0x61; 0x0D; 0x0A; 0x0D; 0x62; 0x0A; 0x0D]%N
  = [0x61; 0x0A; 0x0A; 0x62; 0x0A; 0x0A]%N.
Proof. reflexivity. Qed.

Example upload_path_sample :
  upload_path keep_filename upload_cfm = lit "uploads/page.CFM".
Proof. reflexivity. Qed.

Example known_label :
  dict_get CodeConverter.supported_languages (lit "csharp") = Some (lit "C# with ASP.NET").
Proof. vm_compute. reflexivity. Qed.

(** A whole successful request: one call, the first choice relayed with
    the usage record, nothing logged, nothing on disk. *)
Example inline_request_succeeds :
  convert_code api_ok keep_filename sample_decode_error_text req_inline empty_world =
    (Returned (jsonify (CodeConverter.success_dict (lit "print('hi')")
                          (JObj [("total_tokens"%string, JNum 42)]))),
     World [CodeConverter.completion_request (lit "Python with Flask/Django")
              (lit "python") [] cf_snippet] ∅ []).
Proof. vm_compute. reflexivity. Qed.

(** An endpoint that answers with no choice at all ends in the failure
    dictionary of the [IndexError]. *)
Example empty_choices_reported :
  (CodeConverter.convert_code (fun _ => Returned (ChatResponse [] JNull))
     cf_snippet (lit "php") [] empty_world).1 =
    Returned (CodeConverter.failure_dict (lit "list index out of range")).
Proof. reflexivity. Qed.

(** * Further properties of the code *)

(** ** The extension test *)

Lemma has_char_elem (c : N) (s : str) : has_char c s = true <-> c ∈ s.
Proof.
  unfold has_char. induction s as [|x r IH]; simpl.
  - split; [discriminate | by intros ?%elem_of_nil].
  - rewrite orb_true_iff, IH, elem_of_cons, N.eqb_eq. tauto.
Qed.

Lemma after_last_none (c : N) (s : str) : after_last c s = None <-> c ∉ s.
Proof.
  induction s as [|x r IH]; simpl.
  - split; [intros _; apply not_elem_of_nil | reflexivity].
  - rewrite not_elem_of_cons.
    destruct (after_last c r) as [t|] eqn:Hr.
    + split; [discriminate|]. intros [_ Hnot]. by apply IH in Hnot.
    + destruct (N.eqb_spec x c) as [->|Hne].
      * split; [discriminate | intros [Hc _]; congruence].
      * split; [|reflexivity]. intros _. split; [congruence | by apply IH].
Qed.

Lemma after_last_app (c : N) (stem ext : str) :
  c ∉ ext -> after_last c (stem ++ c :: ext) = Some ext.
Proof.
  intros Hext. induction stem as [|x r IH]; simpl.
  - apply after_last_none in Hext. by rewrite Hext, N.eqb_refl.
  - by rewrite IH.
Qed.

Lemma after_last_some (c : N) (s ext : str) :
  after_last c s = Some ext -> exists stem, s = stem ++ c :: ext /\ (c ∉ ext).
Proof.
  revert ext. induction s as [|x r IH]; intros ext; simpl; [discriminate|].
  destruct (after_last c r) as [t|] eqn:Hr.
  - intros [= <-]. destruct (IH t eq_refl) as (stem & -> & Hnot).
    by exists (x :: stem).
  - destruct (N.eqb_spec x c) as [->|Hne]; [|discriminate].
    intros [= <-]. exists []. split; [reflexivity | by apply after_last_none].
Qed.

(** X1: [allowed_file] accepts a name exactly when it splits at its last
    dot into a stem and an extension that, lower-cased, is one of cfm,
    cfc, cfml, txt; only what follows the last dot counts, and a name
    with no dot is refused. *)
Theorem allowed_file_iff (f : str) :
  allowed_file f = true <->
  exists stem ext,
    f = stem ++ 0x2E%N :: ext /\ (0x2E%N ∉ ext) /\ (lower ext ∈ ALLOWED_EXTENSIONS).
Proof.
  unfold allowed_file. split.
  - intros [_ H]%andb_true_iff.
    destruct (after_last 0x2E f) as [ext|] eqn:Hext; [|discriminate].
    apply bool_decide_eq_true in H.
    destruct (after_last_some _ _ _ Hext) as (stem & -> & Hnot).
    by exists stem, ext.
  - intros (stem & ext & -> & Hnot & Hin).
    rewrite (after_last_app _ stem ext Hnot).
    apply andb_true_iff. split.
    + apply has_char_elem, elem_of_app. right. apply elem_of_cons. by left.
    + by apply bool_decide_eq_true.
Qed.

Lemma lower_char_dot (c : N) : lower_char c = 0x2E%N -> c = 0x2E%N.
Proof.
  unfold lower_char.
  destruct ((0x41 <=? c) && (c <=? 0x5A))%N eqn:H; [|done].
  apply andb_true_iff in H as [H1%N.leb_le H2%N.leb_le]. lia.
Qed.

Lemma lower_char_idem (c : N) : lower_char (lower_char c) = lower_char c.
Proof.
  unfold lower_char.
  destruct ((0x41 <=? c) && (c <=? 0x5A))%N eqn:H; [|by rewrite H].
  apply andb_true_iff in H as [H1%N.leb_le H2%N.leb_le].
  destruct ((0x41 <=? c + 0x20) && (c + 0x20 <=? 0x5A))%N eqn:H'; [|done].
  apply andb_true_iff in H' as [H3%N.leb_le H4%N.leb_le]. lia.
Qed.

Lemma lower_idem (s : str) : lower (lower s) = lower s.
Proof.
  unfold lower. rewrite <- list_fmap_compose.
  apply list_fmap_ext. intros _ c _. apply lower_char_idem.
Qed.

Lemma lower_no_dot (s : str) : 0x2E%N ∉ s -> 0x2E%N ∉ lower s.
Proof.
  unfold lower. intros Hs (c & Hc & Hin)%list_elem_of_fmap.
  symmetry in Hc. apply lower_char_dot in Hc. by subst.
Qed.

(** X2: the case of the extension does not matter: a name and the same
    name with its extension lower-cased get the same verdict. *)
Theorem allowed_file_ignores_case (stem ext : str) :
  0x2E%N ∉ ext ->
  allowed_file (stem ++ 0x2E%N :: ext) = allowed_file (stem ++ 0x2E%N :: lower ext).
Proof.
  intros Hext. unfold allowed_file.
  rewrite (after_last_app _ stem ext Hext).
  rewrite (after_last_app _ stem (lower ext) (lower_no_dot _ Hext)).
  rewrite lower_idem. f_equal.
  transitivity true; [|symmetry];
    apply has_char_elem, elem_of_app; right; apply elem_of_cons; by left.
Qed.

Lemma allowed_file_ignores_case_witness :
  (0x2E%N ∉ lit "CfMl")
  /\ allowed_file (lit "index" ++ 0x2E%N :: lit "CfMl")
     = allowed_file (lit "index" ++ 0x2E%N :: lower (lit "CfMl")).
Proof.
  assert (Hext : 0x2E%N ∉ lit "CfMl").
  { intros H. apply has_char_elem in H. vm_compute in H. discriminate H. }
  split; [exact Hext|].
  exact (allowed_file_ignores_case (lit "index") (lit "CfMl") Hext).
Defined.

(** ** The service *)

(** X3: when the endpoint answers with at least one choice, the service
    returns the success dictionary built from the first choice's message
    content and the usage record as they came; later choices play no
    part, nothing is logged and the world differs by the one recorded
    call. *)
Theorem service_relays_first_choice
    (api : chat_request -> outcome chat_response)
    (code lang custom : str) (w : world)
    (resp : chat_response) (first : choice) (others : list choice) :
  let label := default lang (dict_get CodeConverter.supported_languages lang) in
  let rq := CodeConverter.completion_request label lang custom code in
  api rq = Returned resp ->
  choices resp = first :: others ->
  CodeConverter.convert_code api code lang custom w =
    (Returned (CodeConverter.success_dict (content (message first)) (usage resp)),
     World (calls w ++ [rq]) (fs w) (log w)).
Proof.
  intros label rq Hresp Hchoices. rewrite service_unfold.
  fold label. fold rq. by rewrite Hresp, Hchoices.
Qed.

Lemma service_relays_first_choice_witness :
  api_two_choices
    (CodeConverter.completion_request (lit "PHP") (lit "php") [] cf_snippet)
    = Returned (ChatResponse
                  [ Choice (ChatMessage (lit "assistant") (lit "first"));
                    Choice (ChatMessage (lit "assistant") (lit "second")) ]
                  (JObj [("total_tokens"%string, JNum 7)]))
  /\ CodeConverter.convert_code api_two_choices cf_snippet (lit "php") [] empty_world =
       (Returned (CodeConverter.success_dict (lit "first")
                    (JObj [("total_tokens"%string, JNum 7)])),
        World [CodeConverter.completion_request (lit "PHP") (lit "php") [] cf_snippet] ∅ []).
Proof.
  split; [reflexivity|].
  exact (service_relays_first_choice api_two_choices cf_snippet (lit "php") [] empty_world
           _ _ _ eq_refl eq_refl).
Defined.

(** X4: when the endpoint answers with an empty list of choices,
    [response.choices[0]] raises inside the [try], so the service
    returns the failure dictionary with the text
    [list index out of range]; the call has been made and the error is
    logged. *)
Theorem service_reports_empty_choices
    (api : chat_request -> outcome chat_response)
    (code lang custom : str) (w : world) (resp : chat_response) :
  let label := default lang (dict_get CodeConverter.supported_languages lang) in
  let rq := CodeConverter.completion_request label lang custom code in
  api rq = Returned resp ->
  choices resp = [] ->
  CodeConverter.convert_code api code lang custom w =
    (Returned (CodeConverter.failure_dict (lit "list index out of range")),
     World (calls w ++ [rq]) (fs w)
           (log w ++ [("ERROR"%string,
                       lit "Error converting code: " ++ lit "list index out of range")])).
Proof.
  intros label rq Hresp Hchoices. rewrite service_unfold.
  fold label. fold rq. by rewrite Hresp, Hchoices.
Qed.

Lemma service_reports_empty_choices_witness :
  api_no_choice (CodeConverter.completion_request (lit "PHP") (lit "php") [] cf_snippet)
    = Returned (ChatResponse [] JNull)
  /\ CodeConverter.convert_code api_no_choice cf_snippet (lit "php") [] empty_world =
       (Returned (CodeConverter.failure_dict (lit "list index out of range")),
        World [CodeConverter.completion_request (lit "PHP") (lit "php") [] cf_snippet] ∅
              [("ERROR"%string,
                lit "Error converting code: " ++ lit "list index out of range")]).
Proof.
  split; [reflexivity|].
  exact (service_reports_empty_choices api_no_choice cf_snippet (lit "php") [] empty_world
           _ eq_refl eq_refl).
Defined.

Lemma service_summary
    (api : chat_request -> outcome chat_response)
    (code lang custom : str) (w : world) :
  exists o w',
    CodeConverter.convert_code api code lang custom w = (o, w')
    /\ fs w' = fs w
    /\ calls w' = calls w ++
         [CodeConverter.completion_request
            (default lang (dict_get CodeConverter.supported_languages lang)) lang custom code]
    /\ ((exists d, o = Returned d /\ is_result_dict d)
        \/ (exists e, o = Raised e /\ exn_is_Exception e = false)).
Proof.
  rewrite service_unfold.
  destruct (api _) as [e|resp].
  - destruct (exn_is_Exception e) eqn:He.
    + do 2 eexists. split; [reflexivity|]. repeat split.
      left. eexists. split; [reflexivity|]. right. by eexists.
    + do 2 eexists. split; [reflexivity|]. repeat split. right. by eexists.
  - destruct (choices resp) as [|c cs].
    + do 2 eexists. split; [reflexivity|]. repeat split.
      left. eexists. split; [reflexivity|]. right. by eexists.
    + do 2 eexists. split; [reflexivity|]. repeat split.
      left. eexists. split; [reflexivity|]. left. by do 2 eexists.
Qed.

(** X5: the service never touches the files, and ends in one of three
    ways: it returns a success dictionary and logs nothing; it returns a
    failure dictionary and logs one [ERROR] record carrying the same
    error text; or it raises, without logging, the exception the
    endpoint raised, and then that exception is not under
    [Exception]. *)
Theorem service_logs_its_failures
    (api : chat_request -> outcome chat_response)
    (code lang custom : str) (w : world) :
  let label := default lang (dict_get CodeConverter.supported_languages lang) in
  let rq := CodeConverter.completion_request label lang custom code in
  exists o w',
    CodeConverter.convert_code api code lang custom w = (o, w')
    /\ fs w' = fs w
    /\ ((exists converted_code usage,
           o = Returned (CodeConverter.success_dict converted_code usage)
           /\ log w' = log w)
        \/ (exists error,
              o = Returned (CodeConverter.failure_dict error)
              /\ log w' = log w ++ [("ERROR"%string,
                                     lit "Error converting code: " ++ error)])
        \/ (exists e,
              o = Raised e /\ api rq = Raised e /\ exn_is_Exception e = false
              /\ log w' = log w)).
Proof.
  intros label rq. rewrite service_unfold. fold label. fold rq.
  destruct (api rq) as [e|resp] eqn:Hapi.
  - destruct (exn_is_Exception e) eqn:He.
    + do 2 eexists. split; [reflexivity|]. split; [reflexivity|].
      right. left. by eexists.
    + do 2 eexists. split; [reflexivity|]. split; [reflexivity|].
      right. right. by exists e.
  - destruct (choices resp) as [|c cs].
    + do 2 eexists. split; [reflexivity|]. split; [reflexivity|].
      right. left. by eexists.
    + do 2 eexists. split; [reflexivity|]. split; [reflexivity|].
      left. by do 2 eexists.
Qed.

Lemma contains_here7 (a b c d e f g rest : str) :
  contains (a ++ b ++ c ++ d ++ e ++ f ++ g) (a ++ b ++ c ++ d ++ e ++ f ++ g ++ rest).
Proof. exists [], rest. by rewrite <- !app_assoc. Qed.

(** X6: in the prompt the source text is fenced: a line break, the
    opening fence [```coldfusion], a line break, the source text, a line
    break, the closing fence [```] and a line break follow one another,
    so that each fence is a line of its own; the extra instructions and
    the target-language key are in the prompt verbatim as well. *)
Theorem prompt_fences_the_code (label lang custom code : str) :
  let prompt := CodeConverter.base_prompt label lang custom code in
  contains (CodeConverter.nl ++ lit "```coldfusion" ++ CodeConverter.nl
              ++ code ++ CodeConverter.nl ++ lit "```" ++ CodeConverter.nl)
           prompt
  /\ contains custom prompt
  /\ contains lang prompt.
Proof.
  intros prompt. subst prompt. unfold CodeConverter.base_prompt. split; [|split].
  - repeat (apply contains_here7 || apply contains_app_r).
  - repeat (apply contains_here || apply contains_app_r).
  - repeat (apply contains_here || apply contains_app_r).
Qed.

(** ** The route, case by case *)

Section RouteCases.

Variable api : chat_request -> outcome chat_response.
Variable secure_filename : str -> str.
Variable decode_error_text : bytes -> str.

Local Abbreviation route := (convert_code api secure_filename decode_error_text).

Lemma failure_is_result_dict error : is_result_dict (CodeConverter.failure_dict error).
Proof. right. by eexists. Qed.

(** What the validated tail of the route can do. *)
Lemma validate_summary tl custom code w :
  exists o w',
    validate_and_convert api tl custom code w = (o, w')
    /\ fs w' = fs w
    /\ (calls w' = calls w \/ exists rq, calls w' = calls w ++ [rq])
    /\ ((exists body, o = Returned (jsonify body) /\ is_result_dict body)
        \/ (exists e, o = Raised e /\ exn_is_Exception e = false)).
Proof.
  unfold validate_and_convert.
  destruct (negb (truthy (strip code))).
  { do 2 eexists. split; [reflexivity|]. split; [reflexivity|]. split; [by left|].
    left. eexists. split; [reflexivity | apply failure_is_result_dict]. }
  destruct tl as [lang|].
  2: { do 2 eexists. split; [reflexivity|]. split; [reflexivity|]. split; [by left|].
       left. eexists. split; [reflexivity | apply failure_is_result_dict]. }
  destruct (negb (truthy lang)).
  { do 2 eexists. split; [reflexivity|]. split; [reflexivity|]. split; [by left|].
    left. eexists. split; [reflexivity | apply failure_is_result_dict]. }
  unfold bind, ret.
  destruct (service_summary api code lang custom w)
    as (o & w' & Heq & Hfs & Hcalls & [(d & -> & Hd)|(e & -> & He)]);
    rewrite Heq.
  - do 2 eexists. split; [reflexivity|]. split; [exact Hfs|].
    split; [right; by eexists|]. left. by exists d.
  - do 2 eexists. split; [reflexivity|]. split; [exact Hfs|].
    split; [right; by eexists|]. right. by exists e.
Qed.

(** The body is refused for its length, or the upload could not be
    decoded, or the route runs its validated tail on the source text of
    the request. *)
Lemma route_cases (r : request) w :
  (~ within_limit r /\ route r w = route_failure RequestEntityTooLarge w)
  \/ (exists file,
        within_limit r
        /\ dict_get (files r) (lit "file") = Some file
        /\ allowed_file (filename file) = true
        /\ utf8_decode (stream file) = None
        /\ route r w =
             route_failure (UnicodeDecodeError decode_error_text (stream file))
               (with_file (upload_path secure_filename file) (stream file) w))
  \/ (exists text w1,
        within_limit r
        /\ effective_source_text r = Some text
        /\ calls w1 = calls w /\ log w1 = log w
        /\ (fs w1 = fs w
            \/ exists file, dict_get (files r) (lit "file") = Some file
                            /\ allowed_file (filename file) = true
                            /\ w1 = without_file (upload_path secure_filename file) w)
        /\ route r w =
             validate_and_convert api (dict_get (form r) (lit "target_language"))
               (default [] (dict_get (form r) (lit "custom_prompt"))) text w1).
Proof.
  destruct (decide (within_limit r)) as [Hlim|Hlim].
  2: { left. split; [exact Hlim | by apply route_oversize]. }
  right. unfold effective_source_text.
  destruct (dict_get (files r) (lit "file")) as [file|] eqn:Hfile.
  - rewrite truthy_and_allowed.
    destruct (allowed_file (filename file)) eqn:Hext.
    + destruct (utf8_decode (stream file)) as [t|] eqn:Hdec.
      * right. exists (universal_newlines t),
          (without_file (upload_path secure_filename file) w).
        do 4 (split; [done|]). split; [right; by exists file|].
        by apply route_upload_read.
      * left. exists file. do 4 (split; [done|]). by apply route_upload_undecodable.
    + right. exists (default [] (dict_get (form r) (lit "code_input"))), w.
      do 4 (split; [done|]). split; [by left|]. by apply route_upload_ignored with file.
  - right. exists (default [] (dict_get (form r) (lit "code_input"))), w.
    do 4 (split; [done|]). split; [by left|]. by apply route_without_upload.
Qed.

End RouteCases.

(** X7: [POST /convert] lets nothing under [Exception] out: it answers
    with [jsonify] of the success dictionary or of a failure dictionary,
    and the only way it raises is by handing on an exception that is not
    under [Exception]. *)
Theorem route_answers_with_result_dict
    (api : chat_request -> outcome chat_response)
    (secure_filename : str -> str) (decode_error_text : bytes -> str)
    (r : request) (w : world) :
  (exists body w',
     convert_code api secure_filename decode_error_text r w = (Returned (jsonify body), w')
     /\ is_result_dict body)
  \/ (exists e w',
        convert_code api secure_filename decode_error_text r w = (Raised e, w')
        /\ exn_is_Exception e = false).
Proof.
  destruct (route_cases api secure_filename decode_error_text r w)
    as [(_ & ->) | [(file & _ & _ & _ & _ & ->) | (text & w1 & _ & _ & _ & _ & _ & ->)]].
  - left. do 2 eexists. split; [reflexivity | apply failure_is_result_dict].
  - left. do 2 eexists. split; [reflexivity | apply failure_is_result_dict].
  - destruct (validate_summary api (dict_get (form r) (lit "target_language"))
                (default [] (dict_get (form r) (lit "custom_prompt"))) text w1)
      as (o & w' & -> & _ & _ & [(body & -> & Hbody)|(e & -> & He)]).
    + left. by exists body, w'.
    + right. by exists e, w'.
Qed.

(** X8: one request costs at most one completion call, and the calls
    recorded before it stay as they were: after the route the record is
    the old one, or the old one with one payload appended. *)
Theorem route_calls_at_most_once
    (api : chat_request -> outcome chat_response)
    (secure_filename : str -> str) (decode_error_text : bytes -> str)
    (r : request) (w : world) :
  let w' := (convert_code api secure_filename decode_error_text r w).2 in
  calls w' = calls w \/ exists rq, calls w' = calls w ++ [rq].
Proof.
  intros w'. subst w'.
  destruct (route_cases api secure_filename decode_error_text r w)
    as [(_ & ->) | [(file & _ & _ & _ & _ & ->)
                   | (text & w1 & _ & _ & Hcalls & _ & _ & ->)]].
  - by left.
  - by left.
  - destruct (validate_summary api (dict_get (form r) (lit "target_language"))
                (default [] (dict_get (form r) (lit "custom_prompt"))) text w1)
      as (o & w' & -> & _ & Hc & _).
    cbn [snd]. by rewrite <- Hcalls.
Qed.

(** X9: a success response is the endpoint's own answer: if the route
    answers with the success dictionary, then exactly one call was made,
    the endpoint answered it with at least one choice, and the response
    carries the first choice's message content and the usage record of
    that answer. *)
Theorem route_success_is_endpoint_answer
    (api : chat_request -> outcome chat_response)
    (secure_filename : str -> str) (decode_error_text : bytes -> str)
    (r : request) (w : world) (converted_code : str) (usage_record : json) :
  (convert_code api secure_filename decode_error_text r w).1 =
    Returned (jsonify (CodeConverter.success_dict converted_code usage_record)) ->
  exists rq resp first others,
    calls (convert_code api secure_filename decode_error_text r w).2 = calls w ++ [rq]
    /\ api rq = Returned resp
    /\ choices resp = first :: others
    /\ converted_code = content (message first)
    /\ usage_record = usage resp.
Proof.
  destruct (route_cases api secure_filename decode_error_text r w)
    as [(_ & ->) | [(file & _ & _ & _ & _ & ->)
                   | (text & w1 & _ & _ & Hcalls & _ & _ & ->)]].
  { intros H. discriminate H. }
  { intros H. discriminate H. }
  unfold validate_and_convert.
  destruct (negb (truthy (strip text))); [intros H; discriminate H|].
  destruct (dict_get (form r) (lit "target_language")) as [lang|];
    [|intros H; discriminate H].
  destruct (negb (truthy lang)); [intros H; discriminate H|].
  unfold bind, ret. rewrite service_unfold.
  destruct (api _) as [e|resp] eqn:Hapi.
  { destruct (exn_is_Exception e); intros H; discriminate H. }
  destruct (choices resp) as [|first others] eqn:Hch; [intros H; discriminate H|].
  cbn [fst snd calls]. intros [= <- <-].
  eexists _, resp, first, others. rewrite Hcalls.
  split; [reflexivity|]. by split.
Qed.

Lemma route_success_is_endpoint_answer_witness :
  (convert_code api_two_choices keep_filename sample_decode_error_text req_inline
     empty_world).1 =
    Returned (jsonify (CodeConverter.success_dict (lit "first")
                         (JObj [("total_tokens"%string, JNum 7)])))
  /\ exists rq resp first others,
       calls (convert_code api_two_choices keep_filename sample_decode_error_text
                req_inline empty_world).2 = calls empty_world ++ [rq]
       /\ api_two_choices rq = Returned resp
       /\ choices resp = first :: others
       /\ lit "first" = content (message first)
       /\ JObj [("total_tokens"%string, JNum 7)] = usage resp.
Proof.
  assert (H : (convert_code api_two_choices keep_filename sample_decode_error_text
                 req_inline empty_world).1 =
              Returned (jsonify (CodeConverter.success_dict (lit "first")
                                   (JObj [("total_tokens"%string, JNum 7)]))))
    by (vm_compute; reflexivity).
  split; [exact H|].
  exact (route_success_is_endpoint_answer api_two_choices keep_filename
           sample_decode_error_text req_inline empty_world _ _ H).
Defined.

(** ** Uploads *)





(** X12: a request with no file part, or with one whose name is refused,
    reads and writes no file: the files after the request are the files
    before it. *)
Theorem no_accepted_upload_keeps_files
    (api : chat_request -> outcome chat_response)
    (secure_filename : str -> str) (decode_error_text : bytes -> str)
    (r : request) (w : world) :
  (forall file, dict_get (files r) (lit "file") = Some file ->
                allowed_file (filename file) = false) ->
  fs (convert_code api secure_filename decode_error_text r w).2 = fs w.
Proof.
  intros Hrefused.
  destruct (route_cases api secure_filename decode_error_text r w)
    as [(_ & ->) | [(file & _ & Hfile & Hext & _ & _)
                   | (text & w1 & _ & _ & _ & _ & Hfs1 & ->)]].
  - reflexivity.
  - rewrite (Hrefused file Hfile) in Hext. discriminate Hext.
  - destruct (validate_summary api (dict_get (form r) (lit "target_language"))
                (default [] (dict_get (form r) (lit "custom_prompt"))) text w1)
      as (o & w' & -> & Hfs & _).
    cbn [snd]. rewrite Hfs.
    destruct Hfs1 as [Hfs1|(file & Hfile & Hext & _)]; [exact Hfs1|].
    rewrite (Hrefused file Hfile) in Hext. discriminate Hext.
Qed.

Lemma no_accepted_upload_keeps_files_witness :
  (forall file, dict_get (files (with_upload upload_exe)) (lit "file") = Some file ->
                allowed_file (filename file) = false)
  /\ fs (convert_code api_ok keep_filename sample_decode_error_text
           (with_upload upload_exe) empty_world).2 = fs empty_world.
Proof.
  assert (H : forall file,
             dict_get (files (with_upload upload_exe)) (lit "file") = Some file ->
             allowed_file (filename file) = false).
  { intros file Hfile. vm_compute in Hfile. injection Hfile as <-.
    vm_compute. reflexivity. }
  split; [exact H|].
  exact (no_accepted_upload_keeps_files api_ok keep_filename sample_decode_error_text
           (with_upload upload_exe) empty_world H).
Defined.












(** ** Start-up, once more *)

(** X17: run as the main program, the script leaves through [exit(1)]
    exactly when the key is falsy, that is unset or set to the empty
    string, and [exit] is called with no other status; with any other
    key it goes on to the [PORT] conversion and, unless that raises, to
    [app.run] on host [0.0.0.0] and the converted port, 5000 when
    [PORT] is unset. *)
Theorem main_exit_iff_key_falsy (int_of_str : str -> outcome Z) (environ : gmap str str) :
  (main_guard int_of_str (lit "__main__") environ = SystemExit 1
   <-> truthy_opt (OPENAI_API_KEY environ) = false)
  /\ (forall code, main_guard int_of_str (lit "__main__") environ = SystemExit code ->
                   code = 1%Z)
  /\ (truthy_opt (OPENAI_API_KEY environ) = true ->
      main_guard int_of_str (lit "__main__") environ =
        match environ !! lit "PORT" with
        | None => AppRun (lit "0.0.0.0") 5000
        | Some p =>
            match int_of_str p with
            | Returned port => AppRun (lit "0.0.0.0") port
            | Raised e => Traceback e
            end
        end).
Proof.
  unfold main_guard.
  destruct (decide (lit "__main__" = lit "__main__")) as [_|Hne]; [|congruence].
  destruct (truthy_opt (OPENAI_API_KEY environ)); cbn [negb].
  - split; [|split; [|reflexivity]]; [split; [|discriminate] | intros code];
      (destruct (environ !! lit "PORT") as [p|]; [destruct (int_of_str p)|]);
      discriminate.
  - split; [split; reflexivity|]. split; [by intros code [= <-] | discriminate].
Qed.

(** X19: with a key in place, a [PORT] value that [int] refuses stops
    the main program with that exception before [app.run]: no request is
    answered and no completion call is made. *)
Theorem bad_port_stops_main
    (api : chat_request -> outcome chat_response)
    (secure_filename : str -> str) (decode_error_text : bytes -> str)
    (int_of_str : str -> outcome Z)
    (environ : gmap str str) (invs : list invocation) (port : str) (e : exn) :
  truthy_opt (OPENAI_API_KEY environ) = true ->
  environ !! lit "PORT" = Some port ->
  int_of_str port = Raised e ->
  run api secure_filename decode_error_text int_of_str (lit "__main__") environ invs =
    (Traceback e, Returned [], module_body environ)
  /\ calls (module_body environ) = [].
Proof.
  intros Hkey Hport Hint. unfold run, main_guard, module_body.
  destruct (decide (lit "__main__" = lit "__main__")) as [_|Hne]; [|congruence].
  rewrite Hkey, Hport, Hint. split; reflexivity.
Qed.

Lemma bad_port_stops_main_witness :
  truthy_opt (OPENAI_API_KEY environ_bad_port) = true
  /\ environ_bad_port !! lit "PORT" = Some (lit "http")
  /\ int_refuses (lit "http")
     = Raised (Exn "ValueError" (lit "invalid literal for int() with base 10: 'http'"))
  /\ run api_ok keep_filename sample_decode_error_text int_refuses (lit "__main__")
       environ_bad_port [PostConvert req_inline] =
       (Traceback (Exn "ValueError" (lit "invalid literal for int() with base 10: 'http'")),
        Returned [], module_body environ_bad_port)
  /\ calls (module_body environ_bad_port) = [].
Proof.
  assert (Hkey : truthy_opt (OPENAI_API_KEY environ_bad_port) = true)
    by (vm_compute; reflexivity).
  assert (Hport : environ_bad_port !! lit "PORT" = Some (lit "http"))
    by (vm_compute; reflexivity).
  assert (Hint : int_refuses (lit "http")
                 = Raised (Exn "ValueError"
                             (lit "invalid literal for int() with base 10: 'http'")))
    by (vm_compute; reflexivity).
  do 3 (split; [assumption|]).
  exact (bad_port_stops_main api_ok keep_filename sample_decode_error_text int_refuses
           environ_bad_port [PostConvert req_inline] (lit "http") _ Hkey Hport Hint).
Defined.


Example empty_key_exits :
  main_guard sample_int_of_str (lit "__main__") environ_empty_key = SystemExit 1.
Proof. vm_compute. reflexivity. Qed.

Example key_and_default_port :
  main_guard sample_int_of_str (lit "__main__") environ_with_key
  = AppRun (lit "0.0.0.0") 5000.
Proof. vm_compute. reflexivity. Qed.

(** An oversize request is answered by the route's own handler, with the
    text of the 413 error, and costs no completion call. *)
Example oversize_request_is_refused :
  convert_code api_ok keep_filename sample_decode_error_text
    (with_upload_oversize upload_cfm) empty_world =
    (Returned (jsonify (CodeConverter.failure_dict (exn_str RequestEntityTooLarge))),
     World [] ∅
       [("ERROR"%string,
         lit "Error in convert_code route: " ++ exn_str RequestEntityTooLarge)]).
Proof. vm_compute. reflexivity. Qed.

(** A [KeyboardInterrupt] during the completion call leaves the route as
    it left the service. *)
Example interrupt_leaves_the_route :
  (convert_code api_interrupted keep_filename sample_decode_error_text req_inline
     empty_world).1 = Raised (BaseExn "KeyboardInterrupt" []).
Proof. vm_compute. reflexivity. Qed.

(** ** What reaches the endpoint *)

Lemma app_one_not_self {A} (l : list A) (x : A) : l <> l ++ [x].
Proof.
  intros H. apply (f_equal length) in H. rewrite length_app in H. simpl in H. lia.
Qed.

(** X21: the endpoint is only ever called on validated input: if the
    route added a call, then the request had a source text that is not
    blank and a non-empty target language, and the payload is the one
    built from exactly that text, that language and the extra
    instructions of the form. *)
Theorem route_calls_only_on_valid_input
    (api : chat_request -> outcome chat_response)
    (secure_filename : str -> str) (decode_error_text : bytes -> str)
    (r : request) (w : world) (rq : chat_request) :
  calls (convert_code api secure_filename decode_error_text r w).2 = calls w ++ [rq] ->
  exists text lang,
    effective_source_text r = Some text
    /\ ~ blank text
    /\ dict_get (form r) (lit "target_language") = Some lang
    /\ truthy lang = true
    /\ rq = CodeConverter.completion_request
              (default lang (dict_get CodeConverter.supported_languages lang)) lang
              (default [] (dict_get (form r) (lit "custom_prompt"))) text.
Proof.
  destruct (route_cases api secure_filename decode_error_text r w)
    as [(_ & ->) | [(file & _ & _ & _ & _ & ->)
                   | (text & w1 & _ & Heff & Hcalls & _ & _ & ->)]].
  { cbn [snd route_failure calls]. intros H. by apply app_one_not_self in H. }
  { cbn [snd route_failure calls with_file]. intros H. by apply app_one_not_self in H. }
  unfold validate_and_convert.
  destruct (truthy (strip text)) eqn:Hstrip; cbn [negb].
  2: { cbn [snd ret]. rewrite Hcalls. intros H. by apply app_one_not_self in H. }
  destruct (dict_get (form r) (lit "target_language")) as [lang|].
  2: { cbn [snd ret]. rewrite Hcalls. intros H. by apply app_one_not_self in H. }
  destruct (truthy lang) eqn:Hlang; cbn [negb].
  2: { cbn [snd ret]. rewrite Hcalls. intros H. by apply app_one_not_self in H. }
  unfold bind, ret.
  pose proof (service_calls api text lang
                (default [] (dict_get (form r) (lit "custom_prompt"))) w1) as Hsvc.
  destruct (CodeConverter.convert_code api text lang _ w1) as [[e|d] w'];
    cbn [snd] in *; rewrite Hsvc, Hcalls; intros H;
    apply app_inv_head in H; injection H as <-;
    exists text, lang; (split; [exact Heff|]);
    (split; [intros Hb; by rewrite (truthy_strip_blank _ Hb) in Hstrip|]);
    done.
Qed.

Lemma route_calls_only_on_valid_input_witness :
  calls (convert_code api_ok keep_filename sample_decode_error_text req_inline
           empty_world).2 =
    calls empty_world
      ++ [CodeConverter.completion_request (lit "Python with Flask/Django") (lit "python")
            [] cf_snippet]
  /\ exists text lang,
       effective_source_text req_inline = Some text
       /\ ~ blank text
       /\ dict_get (form req_inline) (lit "target_language") = Some lang
       /\ truthy lang = true
       /\ CodeConverter.completion_request (lit "Python with Flask/Django") (lit "python")
            [] cf_snippet
          = CodeConverter.completion_request
              (default lang (dict_get CodeConverter.supported_languages lang)) lang
              (default [] (dict_get (form req_inline) (lit "custom_prompt"))) text.
Proof.
  assert (H : calls (convert_code api_ok keep_filename sample_decode_error_text req_inline
                       empty_world).2 =
              calls empty_world
                ++ [CodeConverter.completion_request (lit "Python with Flask/Django")
                      (lit "python") [] cf_snippet]) by (vm_compute; reflexivity).
  split; [exact H|].
  exact (route_calls_only_on_valid_input api_ok keep_filename sample_decode_error_text
           req_inline empty_world _ H).
Defined.

